(** * convert_bmp.py: a shallow embedding and its specification

    The script is module-level Python: an argument-count check, two
    assignments from [sys.argv], and one [try]/[except Exception] block that
    calls [Image.open], [Image.save] and [print].

    Modelling choices:
    - the interpreter state is a [World]: the filesystem, the text written to
      standard output, the module namespace, and the trace of calls made into
      the image library;
    - a statement is a function [World -> Outcome * World]; an outcome is
      normal completion, a raised [Exception], or [SystemExit] (which
      [except Exception] does not catch);
    - Pillow is not part of the repository: it is an interface ([PIL]) whose
      two operations are functions of their arguments and the filesystem.
      Properties that depend on what Pillow does are proved from explicit
      contract hypotheses, and every such theorem is exercised on [ToyPIL],
      a small concrete implementation;
    - standard output is a text stream with a codec ([Console]): [print]
      raises [UnicodeEncodeError], and writes nothing, when the codec cannot
      encode its text.  The first [print] of the script sits inside the
      [try] block, the handler's own [print] does not.

    Two idealisations, both about the Python runtime rather than the script:
    - whatever the library raises is an instance of [Exception]; a signal
      arriving from outside ([KeyboardInterrupt]) ends the process and is not
      part of the model;
    - the output device itself works: a closed or full standard output is
      not part of the model, only the codec can make [print] fail. *)

From Stdlib Require Import ZArith Ascii String.
From stdpp Require Import base gmap strings list pretty.

Local Open Scope Z_scope.
Local Open Scope string_scope.

(** ** Python values and exceptions *)

(** An exception instance: its class name and what [str(e)] returns. *)
Record PyExc := mkExc { exc_type : string; exc_str : string }.

(** File contents are byte strings; the filesystem maps paths to contents. *)
Abbreviation Bytes := (list Byte.byte).
Abbreviation FS := (gmap string Bytes).

(** The two entry points of Pillow the script uses.  [Image_open] only reads;
    [Image_save] may change the filesystem whether it succeeds or raises. *)
Class PIL (Img : Type) := {
  Image_open : string -> FS -> PyExc + Img;
  Image_save : Img -> string -> string -> FS -> option PyExc * FS
}.

(** Standard output as a text stream: its codec.  A character of a text is
    either ASCII (code below 128), which every codec encodes, or one of the
    characters with codes 128 to 255, which the codec encodes or not:
    [can_encode].  [encode_error s] is the [UnicodeEncodeError] raised on
    writing a text [s] the codec cannot encode. *)
Class Console := {
  can_encode : ascii -> bool;
  encode_error : string -> PyExc
}.

Definition is_ascii (c : ascii) : bool :=
  match c with Ascii _ _ _ _ _ _ _ b7 => negb b7 end.

(** Whether the codec of standard output encodes every character of [s]. *)
Fixpoint encodable `{!Console} (s : string) : bool :=
  match s with
  | EmptyString => true
  | String c s' => (is_ascii c || can_encode c) && encodable s'
  end.
Arguments encodable {_} s : simpl never.

(** How a statement ends: normally, by raising an [Exception], or by
    raising [SystemExit]. *)
Inductive Outcome (A : Type) :=
| Normal (a : A)
| Raise (e : PyExc)
| SysExit (code : Z).
Arguments Normal {A} a.
Arguments Raise {A} e.
Arguments SysExit {A} code.

Section Interp.
Context {Img : Type} `{!PIL Img} `{!Console}.

(** Values a module-level name can be bound to in this script. *)
Inductive PyVal :=
| VStr (s : string)
| VImg (h : Img)
| VExc (e : PyExc).

(** Calls made into the image library, in program order. *)
Inductive Event :=
| EvOpen (path : string)
| EvSave (h : Img) (path fmt : string).

Record World := mkWorld {
  fs : FS;
  stdout : string;
  globals : gmap string PyVal;
  trace : list Event
}.

Definition Py (A : Type) : Type := World -> Outcome A * World.

Definition ret {A} (a : A) : Py A := fun w => (Normal a, w).

Definition bind {A B} (m : Py A) (k : A -> Py B) : Py B := fun w =>
  match m w with
  | (Normal a, w') => k a w'
  | (Raise e, w') => (Raise e, w')
  | (SysExit c, w') => (SysExit c, w')
  end.

Definition raise {A} (e : PyExc) : Py A := fun w => (Raise e, w).

(** [sys.exit(code)] raises [SystemExit]. *)
Definition sys_exit {A} (code : Z) : Py A := fun w => (SysExit code, w).

Definition newline : string := String "010"%char "".

(** [print(s)]: the text, then a line feed; when the codec cannot encode
    the text, nothing is written and [UnicodeEncodeError] is raised. *)
Definition print (s : string) : Py unit := fun w =>
  if encodable s
  then (Normal tt,
        mkWorld (fs w) (stdout w +:+ s +:+ newline) (globals w) (trace w))
  else (Raise (encode_error s), w).

(** [name = v] at module level. *)
Definition assign (name : string) (v : PyVal) : Py unit := fun w =>
  (Normal tt, mkWorld (fs w) (stdout w) (<[name := v]> (globals w)) (trace w)).

(** [l[i]] on a list; out of range raises [IndexError]. *)
Definition subscript (l : list string) (i : nat) : Py string :=
  match l !! i with
  | Some s => ret s
  | None => raise (mkExc "IndexError" "list index out of range")
  end.

(** [try: body / except Exception as name: handler].  The handler runs with
    [name] bound; the name is unbound again however the handler is left.
    [SystemExit] is not an [Exception] and passes through. *)
Definition try_except {A} (body : Py A) (name : string)
    (handler : PyExc -> Py A) : Py A := fun w =>
  match body w with
  | (Raise e, w1) =>
      let w2 := mkWorld (fs w1) (stdout w1)
                  (<[name := VExc e]> (globals w1)) (trace w1) in
      let '(r, w3) := handler e w2 in
      (r, mkWorld (fs w3) (stdout w3) (delete name (globals w3)) (trace w3))
  | r => r
  end.

(** [Image.open(path)] *)
Definition call_open (path : string) : Py Img := fun w =>
  let w' := mkWorld (fs w) (stdout w) (globals w) (trace w ++ [EvOpen path]) in
  match Image_open path (fs w) with
  | inl e => (Raise e, w')
  | inr h => (Normal h, w')
  end.

(** [h.save(path, fmt)] *)
Definition call_save (h : Img) (path fmt : string) : Py unit := fun w =>
  let '(r, fs') := Image_save h path fmt (fs w) in
  let w' := mkWorld fs' (stdout w) (globals w) (trace w ++ [EvSave h path fmt]) in
  match r with
  | Some e => (Raise e, w')
  | None => (Normal tt, w')
  end.

#[export] Instance Py_ret : MRet Py := @ret.
#[export] Instance Py_bind : MBind Py := fun A B k m => bind m k.

Definition usage : string :=
  "Usage: python convert_bmp.py input.bmp output.png".

Definition converted_msg (input_path output_path : string) : string :=
  "Converted " +:+ input_path +:+ " to " +:+ output_path.

Definition error_msg (e : PyExc) : string := "Error: " +:+ exc_str e.

(** The body of the [try] block. *)
Definition convert (input_path output_path : string) : Py unit :=
  img ← call_open input_path;
  assign "img" (VImg img);;
  call_save img output_path "PNG";;
  print (converted_msg input_path output_path).

(** The body of the [except] block. *)
Definition on_error (e : PyExc) : Py unit :=
  print (error_msg e);;
  sys_exit 1.

(** The module, statement by statement. *)
Definition main (argv : list string) : Py unit :=
  (if decide (length argv ≠ 3%nat)
   then print usage;; sys_exit 1
   else ret tt);;
  input_path ← subscript argv 1;
  assign "input_path" (VStr input_path);;
  output_path ← subscript argv 2;
  assign "output_path" (VStr output_path);;
  try_except (convert input_path output_path) "e" on_error.

(** Process exit status: 0 when the module runs to its end, the argument
    of [sys.exit] otherwise; an uncaught exception ends the process with
    status 1. *)
Definition exit_status (r : Outcome unit) : Z :=
  match r with
  | Normal _ => 0
  | SysExit c => c
  | Raise _ => 1
  end.

Definition run (argv : list string) (w : World) : World * Z :=
  let '(r, w') := main argv w in (w', exit_status r).

(** A fresh process: nothing printed, nothing bound, no call made. *)
Definition start (f : FS) : World := mkWorld f "" ∅ [].

Definition execute (argv : list string) (f : FS) : World * Z :=
  run argv (start f).

(** The namespace once both path assignments have run. *)
Definition paths_bound (input_path output_path : string) (w : World)
    : gmap string PyVal :=
  <["output_path" := VStr output_path]>
    (<["input_path" := VStr input_path]> (globals w)).

(** What [print(s)] adds to standard output. *)
Definition emitted (s : string) : string :=
  if encodable s then s +:+ newline else "".

(** What the [except] block does with the exception [e] it caught, starting
    from [w]: the outcome, and the world once [e] is unbound again. *)
Definition handled (e : PyExc) (w : World) : Outcome unit * World :=
  let g := delete "e" (<["e" := VExc e]> (globals w)) in
  if encodable (error_msg e)
  then (SysExit 1,
        mkWorld (fs w) (stdout w +:+ error_msg e +:+ newline) g (trace w))
  else (Raise (encode_error (error_msg e)),
        mkWorld (fs w) (stdout w) g (trace w)).

(** The text a run adds to standard output, written out as a function of
    the arguments and of the library's answers, with every message spelled
    out.  The runs are compared with it below. *)
Definition expected_stdout (argv : list string) (f : FS) : string :=
  let report e := emitted ("Error: " +:+ exc_str e) in
  match argv with
  | [_; i; o] =>
      match Image_open i f with
      | inl e => report e
      | inr h =>
          match (Image_save h o "PNG" f).1 with
          | Some e => report e
          | None =>
              let line := "Converted " +:+ i +:+ " to " +:+ o in
              if encodable line then line +:+ newline
              else report (encode_error line)
          end
      end
  | _ => "Usage: python convert_bmp.py input.bmp output.png" +:+ newline
  end.

(** A handle is released in a world when no module-level name is bound to
    it any more. *)
Definition released (w : World) (h : Img) : Prop :=
  ∀ name, globals w !! name ≠ Some (VImg h).

End Interp.

Arguments World Img : clear implicits.
Arguments Event Img : clear implicits.
Arguments PyVal Img : clear implicits.

(** ** Counting lines of output *)

(** Number of line feeds in a text.  Every [print] ends its text with a line
    feed, so this is the number of lines standard output holds. *)
Fixpoint line_count (s : string) : nat :=
  match s with
  | EmptyString => 0
  | String c s' => (if Ascii.eqb c "010" then 1 else 0) + line_count s'
  end%nat.

(** ** A concrete image library

    A stand-in for Pillow, small enough to run inside Rocq.  A BMP file is the
    magic ["BM"] followed by raw pixel bytes, a PNG file is the PNG magic
    followed by raw pixel bytes; the decoder recognises a file by content. *)
Module ToyPIL.

Definition Pixels : Type := Bytes.

Definition bmp_magic : Bytes := [Byte.x42; Byte.x4d].
Definition png_magic : Bytes := [Byte.x89; Byte.x50; Byte.x4e; Byte.x47].

Definition decode (bs : Bytes) : option Pixels :=
  match bs with
  | Byte.x42 :: Byte.x4d :: px => Some px
  | Byte.x89 :: Byte.x50 :: Byte.x4e :: Byte.x47 :: px => Some px
  | _ => None
  end.

Definition is_png (bs : Bytes) : bool :=
  match bs with
  | Byte.x89 :: Byte.x50 :: Byte.x4e :: Byte.x47 :: _ => true
  | _ => false
  end.

(** Python's [repr] of a text, as exception messages show paths. *)
Definition hex_digit (n : N) : ascii :=
  default "0"%char
    (list_ascii_of_string "0123456789abcdef" !! N.to_nat n).

Definition hex2 (c : ascii) : string :=
  let n := N_of_ascii c in
  String (hex_digit (n / 16)) (String (hex_digit (n mod 16)) "").

Definition backslash : ascii := "092"%char.
Definition single_quote : ascii := "039"%char.
Definition double_quote : ascii := "034"%char.

Definition printable (c : ascii) : bool :=
  let n := N_of_ascii c in
  ((32 <=? n) && (n <? 127) || (160 <? n) && negb (n =? 173))%N.

Definition escape_char (quote c : ascii) : string :=
  if Ascii.eqb c backslash then String backslash (String backslash "")
  else if Ascii.eqb c quote then String backslash (String quote "")
  else if Ascii.eqb c "010" then String backslash "n"
  else if Ascii.eqb c "013" then String backslash "r"
  else if Ascii.eqb c "009" then String backslash "t"
  else if printable c then String c ""
  else String backslash ("x" +:+ hex2 c).

Fixpoint escape (quote : ascii) (s : string) : string :=
  match s with
  | EmptyString => ""
  | String c s' => escape_char quote c +:+ escape quote s'
  end.

Fixpoint has_char (q : ascii) (s : string) : bool :=
  match s with
  | EmptyString => false
  | String c s' => Ascii.eqb c q || has_char q s'
  end.

Definition py_repr (s : string) : string :=
  let quote :=
    if has_char single_quote s && negb (has_char double_quote s)
    then double_quote else single_quote in
  String quote (escape quote s +:+ String quote "").

Definition no_such_file (path : string) : PyExc :=
  mkExc "FileNotFoundError"
        ("[Errno 2] No such file or directory: " +:+ py_repr path).

Definition cannot_identify (path : string) : PyExc :=
  mkExc "UnidentifiedImageError"
        ("cannot identify image file " +:+ py_repr path).

Definition open (path : string) (f : FS) : PyExc + Pixels :=
  match f !! path with
  | None => inl (no_such_file path)
  | Some bs =>
      match decode bs with
      | None => inl (cannot_identify path)
      | Some px => inr px
      end
  end.

Definition save (px : Pixels) (path fmt : string) (f : FS)
    : option PyExc * FS :=
  if decide (fmt = "PNG") then
    if decide (path = "") then (Some (no_such_file path), f)
    else (None, <[path := (png_magic ++ px)%list]> f)
  else (Some (mkExc "KeyError" (py_repr fmt)), f).

#[export] Instance toy : PIL Pixels :=
  {| Image_open := open; Image_save := save |}.

(** A standard output whose codec is ASCII. *)
Fixpoint first_bad (s : string) : nat :=
  match s with
  | EmptyString => 0
  | String c s' => if is_ascii c then S (first_bad s') else 0
  end.

Fixpoint skip_ascii (s : string) : string :=
  match s with
  | EmptyString => ""
  | String c s' => if is_ascii c then skip_ascii s' else s
  end.

Fixpoint bad_run (s : string) : nat :=
  match s with
  | EmptyString => 0
  | String c s' => if is_ascii c then 0 else S (bad_run s')
  end.

Definition ascii_encode_error (s : string) : PyExc :=
  let start := first_bad s in
  let bad := skip_ascii s in
  let what :=
    match bad with
    | String c _ =>
        if decide (bad_run bad = 1%nat)
        then "character '" +:+ String backslash ("x" +:+ hex2 c)
             +:+ "' in position " +:+ pretty start
        else "characters in position " +:+ pretty start +:+ "-"
             +:+ pretty (start + bad_run bad - 1)%nat
    | EmptyString => "character in position " +:+ pretty start
    end in
  mkExc "UnicodeEncodeError"
        ("'ascii' codec can't encode " +:+ what
         +:+ ": ordinal not in range(128)").

#[export] Instance ascii_stdout : Console :=
  {| can_encode := fun _ => false; encode_error := ascii_encode_error |}.

(** A filesystem holding one 3-byte bitmap, and the spec's example run. *)
Definition sample_px : Pixels := [Byte.x01; Byte.x02; Byte.x03].
Definition sample_bmp : Bytes := (bmp_magic ++ sample_px)%list.
Definition sample_png : Bytes := (png_magic ++ sample_px)%list.
Definition sample_fs : FS := {[ "sample.bmp" := sample_bmp ]}.
Definition sample_argv : list string :=
  ["convert_bmp.py"; "sample.bmp"; "sample.png"].

(** The filesystem the example run leaves behind. *)
Definition sample_fs_after : FS := <["sample.png" := sample_png]> sample_fs.

(** Other command lines used below. *)
Definition one_arg_argv : list string := ["convert_bmp.py"; "sample.bmp"].
Definition missing_argv : list string :=
  ["convert_bmp.py"; "nofile.bmp"; "sample.png"].

(** A path with a character outside ASCII (code 233, e with acute accent),
    a filesystem holding a bitmap there, and two command lines naming it. *)
Definition accent_path : string := String "233"%char ".bmp".
Definition accent_fs : FS := {[ accent_path := sample_bmp ]}.
Definition accent_argv : list string :=
  ["convert_bmp.py"; accent_path; "out.png"].

(** A bitmap whose file name contains a line feed. *)
Definition two_line_path : string := "a" +:+ newline +:+ "b.bmp".
Definition two_line_fs : FS := {[ two_line_path := sample_bmp ]}.
Definition two_line_argv : list string :=
  ["convert_bmp.py"; two_line_path; "out.png"].

End ToyPIL.

(** ** How the module runs

    The ways through the script, as equations on [main]. *)
Section Runs.
Context {Img : Type} `{!PIL Img} `{!Console}.
Implicit Types (w : World Img) (h : Img) (e : PyExc) (f : FS).

Lemma three_args (argv : list string) :
  length argv = 3%nat ↔ ∃ prog i o, argv = [prog; i; o].
Proof.
  split.
  - destruct argv as [|a [|b [|c [|d l]]]]; simpl; try discriminate.
    intros _. by exists a, b, c.
  - by intros (a & b & c & ->).
Qed.

Lemma args_inv (argv : list string) i o :
  length argv = 3%nat → argv !! 1%nat = Some i → argv !! 2%nat = Some o →
  ∃ prog, argv = [prog; i; o].
Proof.
  intros (a & b & c & ->)%three_args [= ->] [= ->]. by exists a.
Qed.

Lemma append_empty_r (s : string) : s +:+ "" = s.
Proof.
  induction s as [|c s IH]; [done|].
  change (String c (s +:+ "") = String c s). by rewrite IH.
Qed.

Lemma encodable_app (a b : string) :
  encodable (a +:+ b) = encodable a && encodable b.
Proof.
  induction a as [|c a IH]; [done|].
  change ((is_ascii c || can_encode c) && encodable (a +:+ b)
          = (is_ascii c || can_encode c) && encodable a && encodable b).
  rewrite IH. by rewrite andb_assoc.
Qed.

Lemma line_count_app (a b : string) :
  line_count (a +:+ b) = (line_count a + line_count b)%nat.
Proof.
  induction a as [|c a IH]; simpl; [reflexivity|].
  rewrite IH. lia.
Qed.

Lemma line_count_printed (msg : string) :
  line_count (msg +:+ newline) = S (line_count msg).
Proof. rewrite line_count_app. simpl. lia. Qed.

(** The world of a run and its exit status, read off [main]. *)
Lemma run_world argv w : (run argv w).1 = (main argv w).2.
Proof. unfold run. by destruct (main argv w). Qed.

Lemma run_status argv w : (run argv w).2 = exit_status (main argv w).1.
Proof. unfold run. by destruct (main argv w). Qed.

(** The handler: it always ends the run with status 1, makes no library
    call, leaves the filesystem and every name but [e] alone, and adds to
    standard output what its [print] manages to write. *)
Lemma handled_status e w : exit_status (handled e w).1 = 1.
Proof. unfold handled. by destruct (encodable (error_msg e)). Qed.

Lemma handled_fs e w : fs (handled e w).2 = fs w.
Proof. unfold handled. by destruct (encodable (error_msg e)). Qed.

Lemma handled_trace e w : trace (handled e w).2 = trace w.
Proof. unfold handled. by destruct (encodable (error_msg e)). Qed.

Lemma handled_stdout e w :
  stdout (handled e w).2 = stdout w +:+ emitted ("Error: " +:+ exc_str e).
Proof.
  unfold handled, emitted. fold (error_msg e).
  destruct (encodable (error_msg e)); [reflexivity|].
  symmetry. apply append_empty_r.
Qed.

Lemma handled_globals e w (name : string) :
  name ≠ "e" → globals (handled e w).2 !! name = globals w !! name.
Proof.
  intros Hne. unfold handled.
  destruct (encodable (error_msg e)); simpl;
    rewrite lookup_delete_ne by done; by rewrite lookup_insert_ne.
Qed.

Lemma main_usage argv w :
  length argv ≠ 3%nat →
  main argv w =
    (SysExit 1,
     mkWorld (fs w) (stdout w +:+ usage +:+ newline) (globals w) (trace w)).
Proof.
  intros Hlen. unfold main, mbind, Py_bind, bind.
  destruct (decide (length argv ≠ 3%nat)) as [_|]; [reflexivity|contradiction].
Qed.

Lemma main_open_fails prog i o w e :
  Image_open i (fs w) = inl e →
  main [prog; i; o] w =
    handled e
      (mkWorld (fs w) (stdout w) (paths_bound i o w) (trace w ++ [EvOpen i])).
Proof.
  intros Hopen.
  unfold main, convert, on_error, try_except, call_open, handled, print,
    mbind, Py_bind, bind; simpl.
  rewrite Hopen; simpl. by destruct (encodable (error_msg e)).
Qed.

Lemma main_save_fails prog i o w h e f' :
  Image_open i (fs w) = inr h →
  Image_save h o "PNG" (fs w) = (Some e, f') →
  main [prog; i; o] w =
    handled e
      (mkWorld f' (stdout w) (<["img" := VImg h]> (paths_bound i o w))
         ((trace w ++ [EvOpen i]) ++ [EvSave h o "PNG"])).
Proof.
  intros Hopen Hsave.
  unfold main, convert, on_error, try_except, call_open, call_save, handled,
    print, mbind, Py_bind, bind; simpl.
  rewrite Hopen; simpl. rewrite Hsave; simpl.
  by destruct (encodable (error_msg e)).
Qed.

Lemma main_success prog i o w h f' :
  Image_open i (fs w) = inr h →
  Image_save h o "PNG" (fs w) = (None, f') →
  encodable (converted_msg i o) = true →
  main [prog; i; o] w =
    (Normal tt,
     mkWorld f' (stdout w +:+ converted_msg i o +:+ newline)
       (<["img" := VImg h]> (paths_bound i o w))
       ((trace w ++ [EvOpen i]) ++ [EvSave h o "PNG"])).
Proof.
  intros Hopen Hsave Henc.
  unfold main, convert, on_error, try_except, call_open, call_save, print,
    mbind, Py_bind, bind; simpl.
  rewrite Hopen; simpl. rewrite Hsave; simpl. by rewrite Henc.
Qed.

(** The save returned but the confirmation cannot be encoded: the [print]
    of the [try] block raises and the handler takes over. *)
Lemma main_confirm_fails prog i o w h f' :
  Image_open i (fs w) = inr h →
  Image_save h o "PNG" (fs w) = (None, f') →
  encodable (converted_msg i o) = false →
  main [prog; i; o] w =
    handled (encode_error (converted_msg i o))
      (mkWorld f' (stdout w) (<["img" := VImg h]> (paths_bound i o w))
         ((trace w ++ [EvOpen i]) ++ [EvSave h o "PNG"])).
Proof.
  intros Hopen Hsave Henc.
  unfold main, convert, on_error, try_except, call_open, call_save, handled,
    print, mbind, Py_bind, bind; simpl.
  rewrite Hopen; simpl. rewrite Hsave; simpl. rewrite Henc; simpl.
  by destruct (encodable (error_msg (encode_error (converted_msg i o)))).
Qed.

Lemma save_cases h o f :
  (∃ f', Image_save h o "PNG" f = (None, f')) ∨
  (∃ e f', Image_save h o "PNG" f = (Some e, f')).
Proof. destruct (Image_save h o "PNG" f) as [[e|] f']; eauto. Qed.

(** Every run of the module takes one of five paths. *)
Lemma main_cases argv w :
  (length argv ≠ 3%nat
   ∧ main argv w =
       (SysExit 1,
        mkWorld (fs w) (stdout w +:+ usage +:+ newline)
          (globals w) (trace w)))
  ∨ (∃ prog i o e,
       argv = [prog; i; o] ∧ Image_open i (fs w) = inl e
       ∧ main argv w =
           handled e
             (mkWorld (fs w) (stdout w) (paths_bound i o w)
                (trace w ++ [EvOpen i])))
  ∨ (∃ prog i o h e f',
       argv = [prog; i; o] ∧ Image_open i (fs w) = inr h
       ∧ Image_save h o "PNG" (fs w) = (Some e, f')
       ∧ main argv w =
           handled e
             (mkWorld f' (stdout w)
                (<["img" := VImg h]> (paths_bound i o w))
                ((trace w ++ [EvOpen i]) ++ [EvSave h o "PNG"])))
  ∨ (∃ prog i o h f',
       argv = [prog; i; o] ∧ Image_open i (fs w) = inr h
       ∧ Image_save h o "PNG" (fs w) = (None, f')
       ∧ encodable (converted_msg i o) = false
       ∧ main argv w =
           handled (encode_error (converted_msg i o))
             (mkWorld f' (stdout w)
                (<["img" := VImg h]> (paths_bound i o w))
                ((trace w ++ [EvOpen i]) ++ [EvSave h o "PNG"])))
  ∨ (∃ prog i o h f',
       argv = [prog; i; o] ∧ Image_open i (fs w) = inr h
       ∧ Image_save h o "PNG" (fs w) = (None, f')
       ∧ encodable (converted_msg i o) = true
       ∧ main argv w =
           (Normal tt,
            mkWorld f' (stdout w +:+ converted_msg i o +:+ newline)
              (<["img" := VImg h]> (paths_bound i o w))
              ((trace w ++ [EvOpen i]) ++ [EvSave h o "PNG"]))).
Proof.
  destruct (decide (length argv = 3%nat)) as [Hlen|Hlen].
  - apply three_args in Hlen as (prog & i & o & ->).
    destruct (Image_open i (fs w)) as [e|h] eqn:Hopen.
    + right; left. exists prog, i, o, e.
      split; [done|]. split; [done|]. by apply main_open_fails.
    + destruct (save_cases h o (fs w)) as [[f' Hsave] | (e & f' & Hsave)].
      * destruct (encodable (converted_msg i o)) eqn:Henc.
        -- right; right; right; right. exists prog, i, o, h, f'.
           repeat (split; [done|]). by apply main_success.
        -- right; right; right; left. exists prog, i, o, h, f'.
           repeat (split; [done|]). by apply main_confirm_fails.
      * right; right; left. exists prog, i, o, h, e, f'.
        repeat (split; [done|]). by apply main_save_fails.
  - left. split; [done|]. by apply main_usage.
Qed.

Lemma exit_zero_inv prog i o w :
  (run [prog; i; o] w).2 = 0 →
  ∃ h f', Image_open i (fs w) = inr h
          ∧ Image_save h o "PNG" (fs w) = (None, f')
          ∧ encodable (converted_msg i o) = true.
Proof.
  rewrite run_status.
  destruct (main_cases [prog; i; o] w)
    as [[Hlen _]
       |[(? & ? & ? & e & [= <- <- <-] & Hopen & ->)
        |[(? & ? & ? & h & e & f' & [= <- <- <-] & Hopen & Hsave & ->)
         |[(? & ? & ? & h & f' & [= <- <- <-] & Hopen & Hsave & Henc & ->)
          |(? & ? & ? & h & f' & [= <- <- <-] & Hopen & Hsave & Henc & _)]]]].
  - by destruct Hlen.
  - by rewrite handled_status.
  - by rewrite handled_status.
  - by rewrite handled_status.
  - intros _. by exists h, f'.
Qed.

End Runs.

(** Split a run along [main_cases], rewriting [main] in the goal. *)
Ltac path_of argv w :=
  rewrite ?run_world, ?run_status;
  let H := fresh "Hmain" in
  destruct (main_cases argv w)
    as [[?Hlen H]
       |[(?prog & ?i & ?o & ?e & ?Hargv & ?Hopen & H)
        |[(?prog & ?i & ?o & ?h & ?e & ?f' & ?Hargv & ?Hopen & ?Hsave & H)
         |[(?prog & ?i & ?o & ?h & ?f' & ?Hargv & ?Hopen & ?Hsave & ?Henc & H)
          |(?prog & ?i & ?o & ?h & ?f' & ?Hargv & ?Hopen & ?Hsave & ?Henc
            & H)]]]];
  rewrite H; clear H;
  rewrite ?handled_status, ?handled_fs, ?handled_trace, ?handled_stdout;
  simpl in *.

Ltac by_path argv w := path_of argv w; simplify_eq.

(** ** What the script guarantees whatever the image library does *)
Section Script.
Context {Img : Type} `{!PIL Img} `{!Console}.
Implicit Types (w : World Img) (h : Img) (e : PyExc) (f : FS).

(** C1 (as amended): with two arguments, a decode and a PNG encode that both
    succeed, and a standard output that can encode the confirmation,
    standard output is exactly the line
    [Converted <input_path> to <output_path>] and the exit status is 0. *)
Theorem C1_success_line (argv : list string) i o f f' h :
  length argv = 3%nat → argv !! 1%nat = Some i → argv !! 2%nat = Some o →
  Image_open i f = inr h →
  Image_save h o "PNG" f = (None, f') →
  encodable ("Converted " +:+ i +:+ " to " +:+ o) = true →
  stdout (execute argv f).1
    = ("Converted " +:+ i +:+ " to " +:+ o) +:+ newline
  ∧ (execute argv f).2 = 0.
Proof.
  intros Hlen Hi Ho Hopen Hsave Henc.
  destruct (args_inv argv i o Hlen Hi Ho) as [prog ->].
  unfold execute. rewrite run_world, run_status.
  rewrite (main_success prog i o (start f) h f' Hopen Hsave Henc).
  split; reflexivity.
Qed.

(** C2: with any number of arguments other than two, the usage message is
    printed, the exit status is 1, and the image library is never called:
    the filesystem is left as it was. *)
Theorem C2_usage_no_access (argv : list string) f :
  length argv ≠ 3%nat →
  stdout (execute argv f).1
    = "Usage: python convert_bmp.py input.bmp output.png" +:+ newline
  ∧ (execute argv f).2 = 1
  ∧ trace (execute argv f).1 = []
  ∧ fs (execute argv f).1 = f.
Proof.
  intros Hlen. unfold execute, run. rewrite (main_usage argv (start f) Hlen).
  repeat split.
Qed.

(** C3 (as amended): with two arguments, an exception raised by the decode
    or by the encode, whatever its class, is handled by the one handler.
    When standard output can encode the text, the output is [Error: ]
    followed by the exception's own text and a line feed, which is one line
    more than the line feeds in that text; the exit status is 1. *)
Theorem C3_failure_line (argv : list string) i o f e :
  length argv = 3%nat → argv !! 1%nat = Some i → argv !! 2%nat = Some o →
  (Image_open i f = inl e ∨
   ∃ h f', Image_open i f = inr h ∧ Image_save h o "PNG" f = (Some e, f')) →
  encodable ("Error: " +:+ exc_str e) = true →
  stdout (execute argv f).1 = ("Error: " +:+ exc_str e) +:+ newline
  ∧ line_count (stdout (execute argv f).1) = S (line_count (exc_str e))
  ∧ (execute argv f).2 = 1.
Proof.
  intros Hlen Hi Ho Hfail Henc.
  destruct (args_inv argv i o Hlen Hi Ho) as [prog ->].
  assert (Hout : ∀ w0 : World Img, stdout w0 = "" →
            stdout (handled e w0).2 = ("Error: " +:+ exc_str e) +:+ newline).
  { intros w0 Hw0. rewrite handled_stdout, Hw0.
    unfold emitted. by rewrite Henc. }
  assert (Hlines : line_count (("Error: " +:+ exc_str e) +:+ newline)
                   = S (line_count (exc_str e))).
  { rewrite line_count_printed. by rewrite line_count_app. }
  unfold execute. rewrite run_world, run_status.
  destruct Hfail as [Hopen | (h & f' & Hopen & Hsave)].
  - rewrite (main_open_fails prog i o (start f) e Hopen).
    rewrite handled_status, Hout by done. by rewrite Hlines.
  - rewrite (main_save_fails prog i o (start f) h e f' Hopen Hsave).
    rewrite handled_status, Hout by done. by rewrite Hlines.
Qed.

(** C5 (as amended): standard output receives at most one message: it is
    exactly [expected_stdout], which is empty (only when the handler's own
    [print] cannot encode its text) or one of the usage text, the Converted
    text and the Error text of the exception that was caught, followed by
    one line feed.  The number of lines is one more than the number of line
    feeds inside the message: none in the usage text, those of the two
    paths in the Converted text, those of the exception's text in the Error
    text. *)
Theorem C5_one_message (argv : list string) f :
  stdout (execute argv f).1 = expected_stdout argv f
  ∧ (stdout (execute argv f).1 = ""
     ∨ (stdout (execute argv f).1
          = "Usage: python convert_bmp.py input.bmp output.png" +:+ newline
        ∧ line_count (stdout (execute argv f).1) = 1%nat)
     ∨ (∃ i o, argv !! 1%nat = Some i ∧ argv !! 2%nat = Some o
          ∧ stdout (execute argv f).1
              = ("Converted " +:+ i +:+ " to " +:+ o) +:+ newline
          ∧ line_count (stdout (execute argv f).1)
              = S (line_count i + line_count o))
     ∨ (∃ e, stdout (execute argv f).1
               = ("Error: " +:+ exc_str e) +:+ newline
          ∧ line_count (stdout (execute argv f).1)
              = S (line_count (exc_str e)))).
Proof.
  assert (Herr : ∀ e out, out = emitted ("Error: " +:+ exc_str e) →
            out = ""
            ∨ (∃ e', out = ("Error: " +:+ exc_str e') +:+ newline
                 ∧ line_count out = S (line_count (exc_str e')))).
  { intros e out ->. unfold emitted.
    destruct (encodable ("Error: " +:+ exc_str e)); [|by left].
    right. exists e. split; [done|].
    rewrite line_count_printed. by rewrite line_count_app. }
  unfold execute. by_path argv (@start Img f).
  - split.
    + destruct argv as [|a [|b [|c [|d l]]]]; try reflexivity.
      by destruct Hlen.
    + right; left. by split.
  - unfold expected_stdout. rewrite Hopen. split; [done|].
    destruct (Herr e _ eq_refl) as [->|?]; [by left|by right; right; right].
  - unfold expected_stdout. rewrite Hopen, Hsave. split; [done|].
    destruct (Herr e _ eq_refl) as [->|?]; [by left|by right; right; right].
  - unfold expected_stdout. rewrite Hopen, Hsave. simpl.
    unfold converted_msg in Henc. rewrite Henc. split; [done|].
    destruct (Herr (encode_error (converted_msg i o)) _ eq_refl)
      as [->|?]; [by left|by right; right; right].
  - unfold expected_stdout. rewrite Hopen, Hsave. simpl.
    unfold converted_msg in Henc. rewrite Henc. split; [done|].
    right; right; left. exists i, o. repeat split.
    change (line_count (converted_msg i o +:+ newline)
            = S (line_count i + line_count o)).
    rewrite line_count_printed. unfold converted_msg.
    rewrite !line_count_app. simpl. lia.
Qed.

(** C8 (as amended): when the decode succeeds, the handle is bound to the
    module-level name [img] and handed to exactly one library call, the
    save, which is the last call of the run.  The script never unbinds it:
    [img] still names the handle when the run ends, whether the save
    succeeded or raised. *)
Theorem C8_handle_used_once_and_kept (argv : list string) i o f h :
  length argv = 3%nat → argv !! 1%nat = Some i → argv !! 2%nat = Some o →
  Image_open i f = inr h →
  trace (execute argv f).1 = [EvOpen i; EvSave h o "PNG"]
  ∧ globals (execute argv f).1 !! "img" = Some (VImg h).
Proof.
  intros Hlen Hi Ho Hopen.
  destruct (args_inv argv i o Hlen Hi Ho) as [prog ->].
  unfold execute. rewrite run_world.
  destruct (save_cases h o f) as [[f' Hsave] | (e & f' & Hsave)].
  - destruct (encodable (converted_msg i o)) eqn:Henc.
    + rewrite (main_success prog i o (start f) h f' Hopen Hsave Henc); simpl.
      split; [reflexivity|]. apply lookup_insert_eq.
    + rewrite (main_confirm_fails prog i o (start f) h f' Hopen Hsave Henc).
      rewrite handled_trace, handled_globals by done; simpl.
      split; [reflexivity|]. apply lookup_insert_eq.
  - rewrite (main_save_fails prog i o (start f) h e f' Hopen Hsave).
    rewrite handled_trace, handled_globals by done; simpl.
    split; [reflexivity|]. apply lookup_insert_eq.
Qed.


End Script.

(** ** What the script guarantees given the library's contract

    The contract is stated once, as hypotheses; each theorem depends only on
    the clauses it uses. *)
Section Contract.
Context {Img Pixels : Type} `{!PIL Img} `{!Console}.
Implicit Types (h : Img) (f : FS) (bs : Bytes).

(** The pixels a handle stands for, the pixels a file's bytes decode to
    (recognised by content), and whether bytes are a PNG file. *)
Variable pixels : Img → Pixels.
Variable decode : Bytes → option Pixels.
Variable is_png : Bytes → bool.

(** Opening a path that does not exist raises. *)
Hypothesis open_missing :
  ∀ p f, f !! p = None → ∃ e, Image_open p f = inl e.

(** A handle stands for the decoded content of the file it was opened on. *)
Hypothesis open_decodes :
  ∀ p f h, Image_open p f = inr h →
    ∃ bs, f !! p = Some bs ∧ decode bs = Some (pixels h).

(** A successful save in format PNG leaves a PNG file at the path, and the
    file decodes to the handle's pixels. *)
Hypothesis save_png_encodes :
  ∀ h p f f', Image_save h p "PNG" f = (None, f') →
    ∃ bs, f' !! p = Some bs ∧ is_png bs = true
          ∧ decode bs = Some (pixels h).

(** C4 (as amended): with two arguments and no file at the input path, the
    exit status is 1 and the save is never reached: the only library call is
    the open, and the filesystem, the output path included, is as it was.
    The output is the line [Error: ] followed by the exception's text when
    standard output can encode that text, and nothing otherwise. *)
Theorem C4_missing_input (argv : list string) i o f :
  length argv = 3%nat → argv !! 1%nat = Some i → argv !! 2%nat = Some o →
  f !! i = None →
  (execute argv f).2 = 1
  ∧ trace (execute argv f).1 = [EvOpen i]
  ∧ fs (execute argv f).1 = f
  ∧ fs (execute argv f).1 !! o = f !! o
  ∧ ∃ e, Image_open i f = inl e
      ∧ (encodable ("Error: " +:+ exc_str e) = true →
         stdout (execute argv f).1 = ("Error: " +:+ exc_str e) +:+ newline)
      ∧ (encodable ("Error: " +:+ exc_str e) = false →
         stdout (execute argv f).1 = "").
Proof.
  intros Hlen Hi Ho Hmiss.
  destruct (args_inv argv i o Hlen Hi Ho) as [prog ->].
  destruct (open_missing i f Hmiss) as [e Hopen].
  unfold execute. rewrite run_world, run_status.
  rewrite (main_open_fails prog i o (start f) e Hopen).
  rewrite handled_status, handled_trace, handled_fs, handled_stdout; simpl.
  repeat (split; [done|]).
  exists e. split; [done|]. unfold emitted.
  split; intros ->; reflexivity.
Qed.

(** C6: two successful runs with the same arguments, on filesystems that
    hold the same input file, leave output files that decode to the same
    pixels. *)
Theorem C6_repeat_same_pixels (argv : list string) i o f1 f2 :
  length argv = 3%nat → argv !! 1%nat = Some i → argv !! 2%nat = Some o →
  f1 !! i = f2 !! i →
  (execute argv f1).2 = 0 → (execute argv f2).2 = 0 →
  ∃ b1 b2 px,
    fs (execute argv f1).1 !! o = Some b1
    ∧ fs (execute argv f2).1 !! o = Some b2
    ∧ decode b1 = Some px ∧ decode b2 = Some px.
Proof.
  intros Hlen Hi Ho Hsame Hz1 Hz2.
  destruct (args_inv argv i o Hlen Hi Ho) as [prog ->].
  unfold execute in *.
  destruct (exit_zero_inv _ _ _ _ Hz1) as (h1 & f1' & Hopen1 & Hsave1 & He1).
  destruct (exit_zero_inv _ _ _ _ Hz2) as (h2 & f2' & Hopen2 & Hsave2 & He2).
  rewrite !run_world.
  rewrite (main_success prog i o (start f1) h1 f1' Hopen1 Hsave1 He1).
  rewrite (main_success prog i o (start f2) h2 f2' Hopen2 Hsave2 He2).
  simpl in *.
  destruct (open_decodes _ _ _ Hopen1) as (a1 & Ha1 & Hd1).
  destruct (open_decodes _ _ _ Hopen2) as (a2 & Ha2 & Hd2).
  destruct (save_png_encodes _ _ _ _ Hsave1) as (b1 & Hb1 & _ & Hp1).
  destruct (save_png_encodes _ _ _ _ Hsave2) as (b2 & Hb2 & _ & Hp2).
  assert (a1 = a2) as -> by congruence.
  exists b1, b2, (pixels h1). repeat split; try done. congruence.
Qed.

(** C7: when the file at [A] decodes to pixels [px] and the run succeeds,
    the file at [B] is a PNG file that decodes to [px], the output is
    [Converted A to B] and the exit status is 0. *)
Theorem C7_pixels_preserved (argv : list string) A B f a px :
  length argv = 3%nat → argv !! 1%nat = Some A → argv !! 2%nat = Some B →
  f !! A = Some a → decode a = Some px →
  (execute argv f).2 = 0 →
  (∃ bs, fs (execute argv f).1 !! B = Some bs
         ∧ is_png bs = true ∧ decode bs = Some px)
  ∧ stdout (execute argv f).1
      = ("Converted " +:+ A +:+ " to " +:+ B) +:+ newline.
Proof.
  intros Hlen HA HB Ha Hpx Hz.
  destruct (args_inv argv A B Hlen HA HB) as [prog ->].
  unfold execute in *.
  destruct (exit_zero_inv _ _ _ _ Hz) as (h & f' & Hopen & Hsave & Henc).
  rewrite !run_world.
  rewrite (main_success prog A B (start f) h f' Hopen Hsave Henc).
  simpl in Hopen, Hsave.
  destruct (open_decodes _ _ _ Hopen) as (a' & Ha' & Hd).
  destruct (save_png_encodes _ _ _ _ Hsave) as (bs & Hbs & Hpng & Hdec).
  split; [|reflexivity].
  exists bs. repeat split; try done. congruence.
Qed.


End Contract.

(** ** The concrete library meets the contract *)
Section ToyContract.
Import ToyPIL.

Lemma toy_open_missing (p : string) (f : FS) :
  f !! p = None → ∃ e, Image_open p f = inl e.
Proof.
  intros Hp. exists (no_such_file p). simpl. unfold open. by rewrite Hp.
Qed.

Lemma toy_open_decodes (p : string) (f : FS) (h : Pixels) :
  Image_open p f = inr h →
  ∃ bs, f !! p = Some bs ∧ decode bs = Some (id h).
Proof.
  simpl. unfold open. destruct (f !! p) as [bs|]; [|discriminate].
  destruct (decode bs) as [px|] eqn:Hd; [|discriminate].
  intros [= ->]. by exists bs.
Qed.

Lemma toy_save_png_encodes (h : Pixels) (p : string) (f f' : FS) :
  Image_save h p "PNG" f = (None, f') →
  ∃ bs, f' !! p = Some bs ∧ is_png bs = true ∧ decode bs = Some (id h).
Proof.
  simpl. unfold save.
  destruct (decide ("PNG" = "PNG")); [|done].
  destruct (decide (p = "")); [discriminate|].
  intros [= <-]. exists (png_magic ++ h)%list.
  split; [apply lookup_insert_eq|]. split; reflexivity.
Qed.

End ToyContract.


(** ** The theorems at work on concrete runs *)
Section Examples.
Import ToyPIL.

(** The spec's example: [sample.bmp] to [sample.png]. *)
Lemma C1_witness :
  stdout (execute sample_argv sample_fs).1
    = "Converted sample.bmp to sample.png" +:+ newline
  ∧ (execute sample_argv sample_fs).2 = 0.
Proof.
  apply (C1_success_line sample_argv "sample.bmp" "sample.png"
           sample_fs sample_fs_after sample_px); reflexivity.
Defined.

(** One argument only. *)
Lemma C2_witness :
  length one_arg_argv ≠ 3%nat
  ∧ stdout (execute one_arg_argv sample_fs).1
      = "Usage: python convert_bmp.py input.bmp output.png" +:+ newline
  ∧ (execute one_arg_argv sample_fs).2 = 1
  ∧ trace (execute one_arg_argv sample_fs).1 = []
  ∧ fs (execute one_arg_argv sample_fs).1 = sample_fs.
Proof.
  assert (Hlen : length one_arg_argv ≠ 3%nat) by (simpl; lia).
  split; [exact Hlen|].
  exact (C2_usage_no_access one_arg_argv sample_fs Hlen).
Defined.

(** The input file is missing: the open raises [FileNotFoundError]. *)
Lemma C3_witness :
  stdout (execute missing_argv sample_fs).1
    = "Error: [Errno 2] No such file or directory: 'nofile.bmp'" +:+ newline
  ∧ line_count (stdout (execute missing_argv sample_fs).1)
      = S (line_count (exc_str (no_such_file "nofile.bmp")))
  ∧ (execute missing_argv sample_fs).2 = 1.
Proof.
  apply (C3_failure_line missing_argv "nofile.bmp" "sample.png" sample_fs
           (no_such_file "nofile.bmp")); try reflexivity.
  left. reflexivity.
Defined.

Lemma C4_witness :
  sample_fs !! "nofile.bmp" = None
  ∧ (execute missing_argv sample_fs).2 = 1
  ∧ trace (execute missing_argv sample_fs).1 = [EvOpen "nofile.bmp"]
  ∧ fs (execute missing_argv sample_fs).1 = sample_fs
  ∧ fs (execute missing_argv sample_fs).1 !! "sample.png"
      = sample_fs !! "sample.png"
  ∧ ∃ e, Image_open "nofile.bmp" sample_fs = inl e
      ∧ (encodable ("Error: " +:+ exc_str e) = true →
         stdout (execute missing_argv sample_fs).1
           = ("Error: " +:+ exc_str e) +:+ newline)
      ∧ (encodable ("Error: " +:+ exc_str e) = false →
         stdout (execute missing_argv sample_fs).1 = "").
Proof.
  assert (Hmiss : sample_fs !! "nofile.bmp" = None) by reflexivity.
  split; [exact Hmiss|].
  apply (C4_missing_input toy_open_missing missing_argv
           "nofile.bmp" "sample.png" sample_fs);
    first [exact Hmiss | reflexivity].
Defined.

(** The example run, then the same run again on what it left behind. *)
Lemma C6_witness :
  sample_fs !! "sample.bmp" = sample_fs_after !! "sample.bmp"
  ∧ ∃ b1 b2 px,
      fs (execute sample_argv sample_fs).1 !! "sample.png" = Some b1
      ∧ fs (execute sample_argv sample_fs_after).1 !! "sample.png" = Some b2
      ∧ decode b1 = Some px ∧ decode b2 = Some px.
Proof.
  assert (Hsame : sample_fs !! "sample.bmp" = sample_fs_after !! "sample.bmp")
    by reflexivity.
  split; [exact Hsame|].
  apply (C6_repeat_same_pixels id decode is_png
           toy_open_decodes toy_save_png_encodes
           sample_argv "sample.bmp" "sample.png" sample_fs sample_fs_after);
    first [exact Hsame | reflexivity].
Defined.

Lemma C7_witness :
  sample_fs !! "sample.bmp" = Some sample_bmp
  ∧ decode sample_bmp = Some sample_px
  ∧ (∃ bs, fs (execute sample_argv sample_fs).1 !! "sample.png" = Some bs
           ∧ is_png bs = true ∧ decode bs = Some sample_px)
  ∧ stdout (execute sample_argv sample_fs).1
      = "Converted sample.bmp to sample.png" +:+ newline.
Proof.
  split; [reflexivity|]. split; [reflexivity|].
  apply (C7_pixels_preserved id decode is_png
           toy_open_decodes toy_save_png_encodes
           sample_argv "sample.bmp" "sample.png" sample_fs
           sample_bmp sample_px); reflexivity.
Defined.

Lemma C8_witness :
  trace (execute sample_argv sample_fs).1
    = [EvOpen "sample.bmp"; EvSave sample_px "sample.png" "PNG"]
  ∧ globals (execute sample_argv sample_fs).1 !! "img"
      = Some (VImg sample_px).
Proof.
  apply (C8_handle_used_once_and_kept sample_argv "sample.bmp" "sample.png"
           sample_fs sample_px); reflexivity.
Defined.



(** C1 as stated fails: on an ASCII standard output, the bitmap at a path
    with an accented letter is decoded and saved, yet the confirmation
    cannot be printed: the run reports an error and exits with status 1. *)
Lemma C1_counterexample :
  Image_open accent_path accent_fs = inr sample_px
  ∧ (Image_save sample_px "out.png" "PNG" accent_fs).1 = None
  ∧ (execute accent_argv accent_fs).2 = 1
  ∧ stdout (execute accent_argv accent_fs).1
      = ("Error: " +:+
         exc_str (encode_error ("Converted " +:+ accent_path +:+ " to out.png")))
        +:+ newline.
Proof. vm_compute. repeat split. Qed.

(** C3 as stated fails: on an ASCII standard output, when the missing input
    path has an accented letter the text of the exception quotes it, the
    handler's [print] raises, and nothing is printed. *)
Lemma C3_counterexample :
  Image_open accent_path sample_fs = inl (no_such_file accent_path)
  ∧ stdout (execute accent_argv sample_fs).1 = "".
Proof. vm_compute. repeat split. Qed.

(** C4 as stated fails for the same run: the input path does not exist and
    no line starting with [Error: ] is printed. *)
Lemma C4_counterexample :
  sample_fs !! accent_path = None
  ∧ (execute accent_argv sample_fs).2 = 1
  ∧ ¬ ∃ rest, stdout (execute accent_argv sample_fs).1 = "Error: " +:+ rest.
Proof.
  split; [reflexivity|]. split; [reflexivity|].
  intros [rest Hrest]. vm_compute in Hrest. discriminate.
Qed.

(** C5 as stated fails: a successful run on a path that contains a line
    feed writes two lines, not one. *)
Lemma C5_counterexample :
  (execute two_line_argv two_line_fs).2 = 0
  ∧ line_count (stdout (execute two_line_argv two_line_fs).1) = 2%nat
  ∧ line_count (stdout (execute two_line_argv two_line_fs).1) ≠ 1%nat.
Proof. vm_compute. repeat split. lia. Qed.

(** C8 as stated fails: after the example run has written its output and
    reached its end, [img] is still bound to the handle. *)
Lemma C8_counterexample :
  (execute sample_argv sample_fs).2 = 0
  ∧ ¬ released (execute sample_argv sample_fs).1 sample_px.
Proof.
  split; [reflexivity|].
  intros Hrel. apply (Hrel "img"). reflexivity.
Qed.

End Examples.

(** ** Further properties of the script *)
Section More.
Context {Img : Type} `{!PIL Img} `{!Console}.
Implicit Types (w : World Img) (h : Img) (e : PyExc) (f : FS).

(** X1: the exit status is 0 exactly when there are two arguments, the
    decode returned a handle, the save returned normally and standard
    output could encode the confirmation. *)
Theorem X1_exit_status (argv : list string) f :
  (execute argv f).2 = 0 ↔
  ∃ prog i o h f',
    argv = [prog; i; o] ∧ Image_open i f = inr h
    ∧ Image_save h o "PNG" f = (None, f')
    ∧ encodable ("Converted " +:+ i +:+ " to " +:+ o) = true.
Proof.
  unfold execute. by_path argv (@start Img f).
  - split; [done|].
    intros (p & i & o & h & f' & -> & _). by destruct Hlen.
  - split; [done|].
    intros (p & i' & o' & h & f' & ? & ? & _). simplify_eq. congruence.
  - split; [done|].
    intros (p & i' & o' & h' & f'' & ? & ? & ? & _). simplify_eq. congruence.
  - split; [done|].
    intros (p & i' & o' & h' & f'' & ? & ? & ? & Henc'). simplify_eq.
    unfold converted_msg in Henc. congruence.
  - split; [|done]. intros _. by exists prog, i, o, h, f'.
Qed.

(** X2: the only exception that can leave the module is the one raised by
    the handler's own [print], on a message standard output cannot encode.
    The subscripts of [sys.argv] never raise [IndexError], the length check
    coming first, and whatever the library or the first [print] raises is
    caught. *)
Theorem X2_only_handler_print_escapes (argv : list string) w x :
  (main argv w).1 = Raise x →
  length argv = 3%nat
  ∧ ∃ e, encodable ("Error: " +:+ exc_str e) = false
         ∧ x = encode_error ("Error: " +:+ exc_str e).
Proof.
  assert (Hh : ∀ e w0, (handled e w0).1 = Raise x →
            ∃ e', encodable ("Error: " +:+ exc_str e') = false
                  ∧ x = encode_error ("Error: " +:+ exc_str e')).
  { intros e w0. unfold handled. fold (error_msg e).
    destruct (encodable (error_msg e)) eqn:Henc; [done|].
    intros [= <-]. by exists e. }
  destruct (main_cases argv w)
    as [[Hlen ->]
       |[(? & ? & ? & e & -> & _ & ->)
        |[(? & ? & ? & ? & e & ? & -> & _ & _ & ->)
         |[(? & i & o & ? & ? & -> & _ & _ & _ & ->)
          |(? & ? & ? & ? & ? & -> & _ & _ & _ & ->)]]]]; try done.
  - intros Hr. split; [done|]. by apply (Hh e _ Hr).
  - intros Hr. split; [done|]. by apply (Hh e _ Hr).
  - intros Hr. split; [done|]. by apply (Hh _ _ Hr).
Qed.

(** X3: the script changes the filesystem through the one save call only,
    and keeps whatever that call left, also when it raised: nothing is
    cleaned up or rolled back.  Without two arguments, or when the decode
    raises, the filesystem is as it was. *)
Theorem X3_filesystem_effect (argv : list string) f :
  fs (execute argv f).1 =
    match argv with
    | [_; i; o] =>
        match Image_open i f with
        | inr h => (Image_save h o "PNG" f).2
        | inl _ => f
        end
    | _ => f
    end.
Proof.
  unfold execute. by_path argv (@start Img f).
  - destruct argv as [|a [|b [|c [|d l]]]]; try reflexivity.
    by destruct Hlen.
  - by rewrite Hopen.
  - by rewrite Hopen, Hsave.
  - by rewrite Hopen, Hsave.
  - by rewrite Hopen, Hsave.
Qed.

(** X4: the library is called at most twice, the open first.  The open gets
    [argv[1]]; the save happens only after a successful open, gets the
    handle that open returned, [argv[2]] and the format ["PNG"]. *)
Theorem X4_library_calls (argv : list string) f :
  trace (execute argv f).1 =
    match argv with
    | [_; i; o] =>
        match Image_open i f with
        | inr h => [EvOpen i; EvSave h o "PNG"]
        | inl _ => [EvOpen i]
        end
    | _ => []
    end.
Proof.
  unfold execute. by_path argv (@start Img f).
  - destruct argv as [|a [|b [|c [|d l]]]]; try reflexivity.
    by destruct Hlen.
  - by rewrite Hopen.
  - by rewrite Hopen.
  - by rewrite Hopen.
  - by rewrite Hopen.
Qed.

(** X5: the program name [argv[0]] plays no part: the usage text names
    [convert_bmp.py] whatever the script was started as, and two command
    lines that differ only in [argv[0]] run alike. *)
Theorem X5_program_name_ignored (prog1 prog2 : string) (args : list string) w :
  run (prog1 :: args) w = run (prog2 :: args) w.
Proof.
  unfold run.
  destruct (decide (length args = 2%nat)) as [Hlen|Hlen].
  - destruct args as [|i [|o [|x l]]]; try discriminate.
    destruct (Image_open i (fs w)) as [e|h] eqn:Hopen.
    + by rewrite (main_open_fails prog1 i o w e Hopen),
                 (main_open_fails prog2 i o w e Hopen).
    + destruct (save_cases h o (fs w)) as [[f' Hsave] | (e & f' & Hsave)].
      * destruct (encodable (converted_msg i o)) eqn:Henc.
        -- by rewrite (main_success prog1 i o w h f' Hopen Hsave Henc),
                      (main_success prog2 i o w h f' Hopen Hsave Henc).
        -- by rewrite (main_confirm_fails prog1 i o w h f' Hopen Hsave Henc),
                      (main_confirm_fails prog2 i o w h f' Hopen Hsave Henc).
      * by rewrite (main_save_fails prog1 i o w h e f' Hopen Hsave),
                   (main_save_fails prog2 i o w h e f' Hopen Hsave).
  - rewrite (main_usage (prog1 :: args) w), (main_usage (prog2 :: args) w);
      [reflexivity| |]; simpl; lia.
Qed.

(** X6: what is printed tells the exit status: the status is 0 exactly when
    the output starts with [Converted ], and 1 exactly when it is empty or
    starts with [Usage: ] or [Error: ]. *)
Theorem X6_output_tells_status (argv : list string) f :
  ((execute argv f).2 = 0 ↔
   ∃ rest, stdout (execute argv f).1 = "Converted " +:+ rest)
  ∧ ((execute argv f).2 = 1 ↔
     stdout (execute argv f).1 = ""
     ∨ ∃ rest, stdout (execute argv f).1 = "Usage: " +:+ rest
               ∨ stdout (execute argv f).1 = "Error: " +:+ rest).
Proof.
  assert (Herr : ∀ e,
            (¬ ∃ rest, emitted ("Error: " +:+ exc_str e)
                       = "Converted " +:+ rest)
            ∧ (emitted ("Error: " +:+ exc_str e) = ""
               ∨ ∃ rest, emitted ("Error: " +:+ exc_str e)
                         = "Error: " +:+ rest)).
  { intros e. unfold emitted.
    destruct (encodable ("Error: " +:+ exc_str e)).
    - split; [by intros [rest ?]|]. right. by eexists.
    - split; [by intros [rest ?]|]. by left. }
  unfold execute. by_path argv (@start Img f).
  - split.
    + split; [done | by intros [rest ?]].
    + split; [|done]. intros _. right. eexists. left. reflexivity.
  - destruct (Herr e) as [Hno Hyes]. split.
    + split; [done | by intros ?].
    + split; [|done]. intros _.
      destruct Hyes as [->|[rest ->]]; [by left|]. right. by exists rest; right.
  - destruct (Herr e) as [Hno Hyes]. split.
    + split; [done | by intros ?].
    + split; [|done]. intros _.
      destruct Hyes as [->|[rest ->]]; [by left|]. right. by exists rest; right.
  - destruct (Herr (encode_error (converted_msg i o))) as [Hno Hyes]. split.
    + split; [done | by intros ?].
    + split; [|done]. intros _.
      destruct Hyes as [->|[rest ->]]; [by left|]. right. by exists rest; right.
  - split.
    + split; [|done]. intros _. by eexists.
    + split; [done|]. intros [?|[rest [?|?]]]; done.
Qed.

(** X10: when the decode and the save succeed but standard output cannot
    encode the confirmation, the [print] inside the [try] block raises and
    the handler reports it: the exit status is 1 and the output is the
    Error line of the encoding failure (or nothing, if that cannot be
    encoded either), although the file the save wrote is kept. *)
Theorem X10_unprintable_confirmation (argv : list string) i o f f' h :
  length argv = 3%nat → argv !! 1%nat = Some i → argv !! 2%nat = Some o →
  Image_open i f = inr h →
  Image_save h o "PNG" f = (None, f') →
  encodable ("Converted " +:+ i +:+ " to " +:+ o) = false →
  (execute argv f).2 = 1
  ∧ fs (execute argv f).1 = f'
  ∧ stdout (execute argv f).1
      = emitted ("Error: " +:+
                 exc_str (encode_error ("Converted " +:+ i +:+ " to " +:+ o))).
Proof.
  intros Hlen Hi Ho Hopen Hsave Henc.
  destruct (args_inv argv i o Hlen Hi Ho) as [prog ->].
  unfold execute. rewrite !run_world, run_status.
  rewrite (main_confirm_fails prog i o (start f) h f' Hopen Hsave Henc).
  by rewrite handled_status, handled_fs, handled_stdout.
Qed.

End More.

(** ** Further properties that rest on the library's contract *)
Section MoreContract.
Context {Img Pixels : Type} `{!PIL Img} `{!Console}.
Implicit Types (h : Img) (f : FS) (bs : Bytes).

Variable pixels : Img → Pixels.
Variable decode : Bytes → option Pixels.
Variable is_png : Bytes → bool.

(** The clauses of [Contract], and one more: a save, whether it returns or
    raises, touches no path but the one it is given. *)
Hypothesis open_decodes :
  ∀ p f h, Image_open p f = inr h →
    ∃ bs, f !! p = Some bs ∧ decode bs = Some (pixels h).

Hypothesis save_png_encodes :
  ∀ h p f f', Image_save h p "PNG" f = (None, f') →
    ∃ bs, f' !! p = Some bs ∧ is_png bs = true
          ∧ decode bs = Some (pixels h).

Hypothesis save_frame :
  ∀ h p fmt f q, q ≠ p → (Image_save h p fmt f).2 !! q = f !! q.

(** Under the contract, a successful run leaves at the output path a PNG
    file that decodes to what the input path held. *)
Lemma success_pixels prog A B f a px :
  f !! A = Some a → decode a = Some px →
  (execute [prog; A; B] f).2 = 0 →
  ∃ bs, fs (execute [prog; A; B] f).1 !! B = Some bs
        ∧ is_png bs = true ∧ decode bs = Some px.
Proof.
  intros Ha Hpx Hz. unfold execute in *.
  destruct (exit_zero_inv _ _ _ _ Hz) as (h & f' & Hopen & Hsave & Henc).
  rewrite run_world.
  rewrite (main_success prog A B (start f) h f' Hopen Hsave Henc).
  simpl in *.
  destruct (open_decodes _ _ _ Hopen) as (a' & Ha' & Hd).
  destruct (save_png_encodes _ _ _ _ Hsave) as (bs & Hbs & Hpng & Hdec).
  exists bs. repeat split; try done. congruence.
Qed.

(** X7: converting a file onto itself works: when both arguments name the
    same path and the run succeeds, that path then holds a PNG file with the
    pixels the original had. *)
Theorem X7_in_place (prog A : string) f a px :
  f !! A = Some a → decode a = Some px →
  (execute [prog; A; A] f).2 = 0 →
  ∃ bs, fs (execute [prog; A; A] f).1 !! A = Some bs
        ∧ is_png bs = true ∧ decode bs = Some px.
Proof. apply success_pixels. Qed.

(** X8: conversions chain.  A successful run from [A] to [B] followed by a
    successful run from [B] to [C], on the filesystem the first one left,
    puts at [C] a PNG file with the pixels of [A]. *)
Theorem X8_chained_runs (prog1 prog2 A B C : string) f a px :
  f !! A = Some a → decode a = Some px →
  (execute [prog1; A; B] f).2 = 0 →
  (execute [prog2; B; C] (fs (execute [prog1; A; B] f).1)).2 = 0 →
  ∃ bs,
    fs (execute [prog2; B; C] (fs (execute [prog1; A; B] f).1)).1 !! C
      = Some bs
    ∧ is_png bs = true ∧ decode bs = Some px.
Proof.
  intros Ha Hpx Hz1 Hz2.
  destruct (success_pixels prog1 A B f a px Ha Hpx Hz1)
    as (b & Hb & _ & Hdb).
  exact (success_pixels prog2 B C _ b px Hb Hdb Hz2).
Qed.

(** X9: whatever the arguments and however the run ends, every path other
    than the output path [argv[2]] holds afterwards what it held before: the
    script never deletes or rewrites the input or any other file. *)
Theorem X9_other_paths_kept (argv : list string) f (q : string) :
  (length argv = 3%nat → argv !! 2%nat ≠ Some q) →
  fs (execute argv f).1 !! q = f !! q.
Proof.
  intros Hq. unfold execute.
  destruct (decide (length argv = 3%nat)) as [Hlen|Hlen].
  - specialize (Hq Hlen).
    apply three_args in Hlen as (prog & i & o & ->).
    assert (q ≠ o) as Hne by (intros ->; by apply Hq).
    by_path [prog; i; o] (@start Img f); try done.
    all: pose proof (save_frame h _ "PNG" f q Hne) as Hfr.
    all: by rewrite Hsave in Hfr.
  - rewrite run_world. by rewrite (main_usage argv (start f) Hlen).
Qed.

End MoreContract.

(** ** The further properties on concrete runs *)
Section MoreExamples.
Import ToyPIL.

Lemma toy_save_frame (h : Pixels) (p fmt : string) (f : FS) (q : string) :
  q ≠ p → (Image_save h p fmt f).2 !! q = f !! q.
Proof.
  intros Hne. simpl. unfold save.
  destruct (decide (fmt = "PNG")); [|done].
  destruct (decide (p = "")); [done|].
  simpl. by apply lookup_insert_ne.
Qed.

(** [sample.bmp] converted onto itself. *)
Lemma X7_witness :
  sample_fs !! "sample.bmp" = Some sample_bmp
  ∧ decode sample_bmp = Some sample_px
  ∧ ∃ bs,
      fs (execute ["convert_bmp.py"; "sample.bmp"; "sample.bmp"]
            sample_fs).1 !! "sample.bmp" = Some bs
      ∧ is_png bs = true ∧ decode bs = Some sample_px.
Proof.
  split; [reflexivity|]. split; [reflexivity|].
  apply (X7_in_place id decode is_png toy_open_decodes toy_save_png_encodes
           "convert_bmp.py" "sample.bmp" sample_fs sample_bmp sample_px);
    reflexivity.
Defined.

(** [sample.bmp] to [sample.png], then [sample.png] to [copy.png]. *)
Lemma X8_witness :
  sample_fs !! "sample.bmp" = Some sample_bmp
  ∧ decode sample_bmp = Some sample_px
  ∧ ∃ bs,
      fs (execute ["convert_bmp.py"; "sample.png"; "copy.png"]
            (fs (execute sample_argv sample_fs).1)).1 !! "copy.png" = Some bs
      ∧ is_png bs = true ∧ decode bs = Some sample_px.
Proof.
  split; [reflexivity|]. split; [reflexivity|].
  apply (X8_chained_runs id decode is_png
           toy_open_decodes toy_save_png_encodes
           "convert_bmp.py" "convert_bmp.py"
           "sample.bmp" "sample.png" "copy.png"
           sample_fs sample_bmp sample_px);
    reflexivity.
Defined.

(** The example run leaves [sample.bmp] as it was. *)
Lemma X9_witness :
  fs (execute sample_argv sample_fs).1 !! "sample.bmp"
    = sample_fs !! "sample.bmp".
Proof.
  apply (X9_other_paths_kept toy_save_frame sample_argv sample_fs "sample.bmp").
  intros _. discriminate.
Defined.

(** A missing input whose path has an accented letter, on an ASCII standard
    output: the handler's [print] raises and the exception leaves the
    module. *)
Lemma X2_witness :
  (main accent_argv (start sample_fs)).1
    = Raise (encode_error ("Error: " +:+ exc_str (no_such_file accent_path)))
  ∧ length accent_argv = 3%nat
  ∧ ∃ e, encodable ("Error: " +:+ exc_str e) = false
         ∧ encode_error ("Error: " +:+ exc_str (no_such_file accent_path))
           = encode_error ("Error: " +:+ exc_str e).
Proof.
  assert (Hr : (main accent_argv (start sample_fs)).1
               = Raise (encode_error
                          ("Error: " +:+ exc_str (no_such_file accent_path))))
    by reflexivity.
  split; [exact Hr|].
  exact (X2_only_handler_print_escapes accent_argv (start sample_fs) _ Hr).
Defined.

(** The bitmap at the accented path is converted, the confirmation is not
    printable, the run ends with status 1 and the new file in place. *)
Lemma X10_witness :
  encodable ("Converted " +:+ accent_path +:+ " to " +:+ "out.png") = false
  ∧ (execute accent_argv accent_fs).2 = 1
  ∧ fs (execute accent_argv accent_fs).1
      = <["out.png" := sample_png]> accent_fs
  ∧ stdout (execute accent_argv accent_fs).1
      = emitted ("Error: " +:+
                 exc_str (encode_error
                   ("Converted " +:+ accent_path +:+ " to " +:+ "out.png"))).
Proof.
  split; [reflexivity|].
  apply (X10_unprintable_confirmation accent_argv accent_path "out.png"
           accent_fs (<["out.png" := sample_png]> accent_fs) sample_px);
    reflexivity.
Defined.

End MoreExamples.
